(** * convertuiJsonChildToMultipleJson.py: splitting a UI layout into one file per child

    A shallow embedding of [assets/layouts/convertuiJsonChildToMultipleJson.py].
    Python values that come out of [json.load] are the inductive type [json];
    Python's [None] is the JSON null.  Text is a sequence of Unicode code
    points.  Code that can raise returns a [result]; the converter threads the
    output directory and the standard output through a small state-and-error
    monad. *)

From stdpp Require Import gmap strings list.
From Stdlib Require Import ZArith NArith Floats.SpecFloat DecimalString.
From Stdlib Require DecimalNat DecimalFacts.

#[local] Set Warnings "-register-all".

(** ** Text *)

(** A Python [str]: its code points, in order. *)
Abbreviation pystr := (list N).

(** A literal of the source, as code points (the literals are all ASCII). *)
Definition str (s : string) : pystr :=
  (fun a => Ascii.N_of_ascii a) <$> String.list_ascii_of_string s.

Arguments str s%_string.

Definition pystr_eqb (a b : pystr) : bool := bool_decide (a = b).

(** [str(i)] inside an f-string, for the index that [enumerate] yields. *)
Definition str_of_int (i : nat) : pystr := str (NilZero.string_of_uint (Nat.to_uint i)).

(** [needle in haystack] on two strings: the substring test. *)
Fixpoint is_prefix (p s : pystr) : bool :=
  match p, s with
  | [], _ => true
  | _ :: _, [] => false
  | a :: p', b :: s' => bool_decide (a = b) && is_prefix p' s'
  end.

Fixpoint is_substring (needle hay : pystr) : bool :=
  is_prefix needle hay ||
  match hay with
  | [] => false
  | _ :: hay' => is_substring needle hay'
  end.

(** ** The character classes of [str.isalnum] and [str.rstrip]

    The two predicates come from the Unicode database of the Python runtime,
    which is not part of the repository.  They are an interface; what the
    proofs use of it is their value on the ASCII range and that no
    alphanumeric character is white space. *)

Definition ascii_isalnum (c : N) : bool :=
  ((48 <=? c) && (c <=? 57) || (65 <=? c) && (c <=? 90) || (97 <=? c) && (c <=? 122))%N.

Definition ascii_isspace (c : N) : bool :=
  ((9 <=? c) && (c <=? 13) || (28 <=? c) && (c <=? 32))%N.

Class UnicodeDB := {
  isalnum_cp : N -> bool;
  isspace_cp : N -> bool;
  isalnum_ascii : forall c, (c < 128)%N -> isalnum_cp c = ascii_isalnum c;
  isspace_ascii : forall c, (c < 128)%N -> isspace_cp c = ascii_isspace c;
  isalnum_not_space : forall c, isalnum_cp c = true -> isspace_cp c = false
}.

(** The database cut down to ASCII: nothing above U+007F is alphanumeric or
    white space.  It shows that the interface has an implementation, and the
    concrete runs below use it (their texts are ASCII, where every database
    agrees with it). *)
Definition ascii_only (p : N -> bool) (c : N) : bool := (c <? 128)%N && p c.

Definition ascii_db : UnicodeDB.
Proof.
  refine (Build_UnicodeDB (ascii_only ascii_isalnum) (ascii_only ascii_isspace) _ _ _).
  - intros c Hc. unfold ascii_only. apply N.ltb_lt in Hc. by rewrite Hc.
  - intros c Hc. unfold ascii_only. apply N.ltb_lt in Hc. by rewrite Hc.
  - intros c. unfold ascii_only, ascii_isalnum, ascii_isspace.
    destruct (c <? 128)%N; simpl; [|done].
    intros H.
    destruct (N.leb_spec 9 c), (N.leb_spec c 13), (N.leb_spec 28 c),
      (N.leb_spec c 32); simpl; try done;
    destruct (N.leb_spec 48 c), (N.leb_spec c 57), (N.leb_spec 65 c),
      (N.leb_spec c 90), (N.leb_spec 97 c), (N.leb_spec c 122);
    simpl in H; try done; lia.
Defined.

(** ** Values *)

(** What [json.load] returns: [None], [bool], [int], [float], [str], [list]
    and [dict].  An object keeps its entries in order, as a Python [dict]
    does; a [dict] has each key once, and [dict_get] finds the entry of a
    key. *)
Inductive json :=
| JNull
| JBool (b : bool)
| JInt (z : Z)
| JFloat (f : spec_float)
| JString (s : pystr)
| JArray (l : list json)
| JObject (o : list (pystr * json)).

Fixpoint dict_get (k : pystr) (o : list (pystr * json)) : option json :=
  match o with
  | [] => None
  | (k', v) :: o' => if pystr_eqb k k' then Some v else dict_get k o'
  end.

(** [dict_get] with the two continuations passed in, so that a recursive
    function can go on in the value that was found. *)
Definition dict_case {A} (k : pystr) (found : json -> A) (absent : A) :=
  fix go (o : list (pystr * json)) : A :=
    match o with
    | [] => absent
    | (k', v) :: o' => if pystr_eqb k k' then found v else go o'
    end.

(** Python's truth value of an object. *)
Definition truthy (v : json) : bool :=
  match v with
  | JNull => false
  | JBool b => b
  | JInt z => negb (z =? 0)%Z
  | JFloat (S754_zero _) => false
  | JFloat _ => true
  | JString s => negb (bool_decide (s = []))
  | JArray l => negb (bool_decide (l = []))
  | JObject o => negb (bool_decide (o = []))
  end.

(** ** Exceptions *)

Inductive exn := TypeError | AttributeError | KeyError | ValueError | OSError.

Inductive result (A : Type) :=
| Ok (a : A)
| Raise (e : exn).
Arguments Ok {A} a.
Arguments Raise {A} e.

Definition rbind {A B} (r : result A) (k : A -> result B) : result B :=
  match r with
  | Ok a => k a
  | Raise e => Raise e
  end.

Declare Scope result_scope.
Delimit Scope result_scope with result.
Bind Scope result_scope with result.
Notation "x <- c ;; k" := (rbind c (fun x => k))
  (at level 100, c at next level, right associativity) : result_scope.
#[local] Open Scope result_scope.

(** [needle in container], for a text needle. *)
Definition py_contains (needle : pystr) (container : json) : result bool :=
  match container with
  | JObject o => Ok (bool_decide (is_Some (dict_get needle o)))
  | JArray l => Ok (existsb (fun v => match v with JString s => pystr_eqb needle s | _ => false end) l)
  | JString s => Ok (is_substring needle s)
  | _ => Raise TypeError
  end.

(** [container[key]], for a text key. *)
Definition py_getitem (container : json) (key : pystr) : result json :=
  match container with
  | JObject o => match dict_get key o with Some v => Ok v | None => Raise KeyError end
  | _ => Raise TypeError
  end.

(** What a [for] loop (or [enumerate]) goes through. *)
Definition py_iter (v : json) : result (list json) :=
  match v with
  | JString s => Ok ((fun c => JString [c]) <$> s)
  | JArray l => Ok l
  | JObject o => Ok ((fun kv => JString kv.1) <$> o)
  | _ => Raise TypeError
  end.

(** ** Name resolution *)

(** The test of line 16 and the value of line 17: [params] is a [dict] that
    has the key [name]. *)
Definition params_name (o : list (pystr * json)) : option json :=
  match dict_get (str "params") o with
  | Some (JObject p) => dict_get (str "name") p
  | _ => None
  end.

(** [extract_name_from_object], lines 12-30.  The result is a Python value;
    [JNull] is the [None] of line 30. *)
Fixpoint extract_name_from_object (obj : json) : json :=
  match obj with
  | JObject o =>
      match params_name o with
      | Some v => v
      | None =>
          match dict_get (str "name") o with
          | Some v => v
          | None =>
              dict_case (str "children")
                (fun cs =>
                   match cs with
                   | JArray l =>
                       (fix first_name (l : list json) : json :=
                          match l with
                          | [] => JNull
                          | child :: l' =>
                              let name := extract_name_from_object child in
                              if truthy name then name else first_name l'
                          end) l
                   | _ => JNull
                   end)
                JNull o
          end
      end
  | _ => JNull
  end.

(** [find_named_children], lines 32-44; [i] is the index [enumerate] has
    reached. *)
Fixpoint find_named_children_from (i : nat) (children : list json) : list (json * json) :=
  match children with
  | [] => []
  | child :: rest =>
      let name := extract_name_from_object child in
      (if truthy name then (name, child)
       else (JString (str "child_" ++ str_of_int i), child))
      :: find_named_children_from (S i) rest
  end.

Definition find_named_children (children : list json) : list (json * json) :=
  find_named_children_from 0 children.

(** ** The file name of a child *)

Section Sanitizer.
Context {U : UnicodeDB}.

(** The characters that line 77 keeps of a text name. *)
Definition keeps (c : N) : bool :=
  isalnum_cp c || pystr_eqb [c] (str "-") || pystr_eqb [c] (str "_").

(** [s.isalnum()] on a string: it is not empty and all its characters are
    alphanumeric. *)
Definition str_isalnum (s : pystr) : bool :=
  negb (bool_decide (s = [])) && forallb isalnum_cp s.

(** The condition of line 77, [c.isalnum() or c in ('-', '_')].  Only a
    [str] has the method. *)
Definition kept (c : json) : result bool :=
  match c with
  | JString s => Ok (str_isalnum s || pystr_eqb s (str "-") || pystr_eqb s (str "_"))
  | _ => Raise AttributeError
  end.

(** ["".join(c for c in ... if ...)] *)
Fixpoint join_kept (items : list json) : result pystr :=
  match items with
  | [] => Ok []
  | c :: rest =>
      b <- kept c ;;
      tail <- join_kept rest ;;
      Ok (if b then match c with JString s => s ++ tail | _ => tail end else tail)
  end.

(** [s.rstrip()]: the white space at the end goes. *)
Definition rstrip (s : pystr) : pystr :=
  foldr (fun c acc => if isspace_cp c && bool_decide (acc = []) then [] else c :: acc) [] s.

(** Lines 77-79. *)
Definition safe_name (name : json) : result pystr :=
  items <- py_iter name ;;
  joined <- join_kept items ;;
  let stripped := rstrip joined in
  Ok (if bool_decide (stripped = []) then str "unnamed" else stripped).

(** Line 81. *)
Definition filename_of (name : json) : result pystr :=
  safe <- safe_name name ;;
  Ok (safe ++ str ".json").
End Sanitizer.

(** ** The converter's surroundings *)

(** What [json.dump] does to the open file: all of the text, or an exception
    after the part of the text that was already written.  The encoder belongs
    to the Python library; it is a field of the environment. *)
Inductive dump_result :=
| Dumped (text : string)
| DumpFailed (partial : string) (e : exn).

(** What the run meets outside of the program: whether the output directory
    can be made, which file names can be opened for writing, and the
    encoder. *)
Record env := {
  mkdir_ok : bool;
  can_open : pystr -> bool;
  json_dump : json -> dump_result
}.

(** What [open] and [json.load] make of the input file, lines 50-58: the two
    exceptions that the function catches, any other exception, or the parsed
    document. *)
Inductive loaded :=
| NotFound
| InvalidJSON
| Unreadable (e : exn)
| Loaded (data : json).

(** The lines of the standard output: the header of [main], the three error
    lines of the converter, the count of children, the report of a write, the
    line that ends the conversion, and the two banners of [main]. *)
Inductive event :=
| MsgHeader
| MsgNotFound
| MsgInvalidJSON
| MsgSchema
| MsgFound (n : nat)
| MsgCreated (filename : pystr)
| MsgFailed (filename : pystr)
| MsgCompleted
| MsgSuccessful
| MsgConversionFailed.

(** The output directory (whether it exists, and the content of its files
    by name) and the standard output. *)
Record world := {
  dir_exists : bool;
  files : gmap (list N) string;
  stdout : list event
}.

Definition M (A : Type) : Type := world -> result A * world.

Definition ret {A} (a : A) : M A := fun w => (Ok a, w).
Definition raise {A} (e : exn) : M A := fun w => (Raise e, w).
Definition lift {A} (r : result A) : M A := fun w => (r, w).

Definition mbind {A B} (m : M A) (k : A -> M B) : M B := fun w =>
  match m w with
  | (Ok a, w') => k a w'
  | (Raise e, w') => (Raise e, w')
  end.

Declare Scope conv_scope.
Delimit Scope conv_scope with conv.
Notation "x <- c ;; k" := (mbind c (fun x => k))
  (at level 100, c at next level, right associativity) : conv_scope.
Notation "c ;; k" := (mbind c (fun _ => k))
  (at level 100, right associativity) : conv_scope.
#[local] Open Scope conv_scope.

(** [try: body except Exception as e: handler]. *)
Definition try_except {A} (body : M A) (handler : exn -> M A) : M A := fun w =>
  match body w with
  | (Raise e, w') => handler e w'
  | other => other
  end.

(** The world with one more line on the standard output. *)
Definition logged (e : event) (w : world) : world :=
  {| dir_exists := dir_exists w; files := files w; stdout := stdout w ++ [e] |}.

(** The world once the output directory is there. *)
Definition with_dir (w : world) : world :=
  {| dir_exists := true; files := files w; stdout := stdout w |}.

Definition set_file (filename : pystr) (text : string) (w : world) : world :=
  {| dir_exists := dir_exists w; files := <[filename := text]> (files w); stdout := stdout w |}.

(** [print(...)]; the standard output is taken to accept every line. *)
Definition print (e : event) : M unit := fun w => (Ok (), logged e w).

(** Line 62, [mkdir(parents=True, exist_ok=True)]. *)
Definition mkdir (E : env) : M unit := fun w =>
  if mkdir_ok E then (Ok (), with_dir w) else (Raise OSError, w).

(** Lines 93-94: [open(filepath, 'w')] empties or creates the file, or
    raises and leaves it alone; [json.dump] then writes. *)
Definition open_and_dump (E : env) (filename : pystr) (data : json) : M unit := fun w =>
  if can_open E filename then
    match json_dump E data with
    | Dumped text => (Ok (), set_file filename text w)
    | DumpFailed partial e => (Raise e, set_file filename partial w)
    end
  else (Raise OSError, w).

Fixpoint for_each {A} (l : list A) (body : A -> M unit) : M unit :=
  match l with
  | [] => ret ()
  | x :: l' => body x ;; for_each l' body
  end.

(** ** The converter *)

Section Converter.
Context {U : UnicodeDB}.
Variable E : env.

(** Lines 85-89. *)
Definition child_data (child : json) : json :=
  JObject [(str "layout", JObject [(str "children", JArray [child])])].

(** The body of the loop, lines 76-97. *)
Definition write_child (named : json * json) : M unit :=
  let '(name, child) := named in
  filename <- lift (filename_of name) ;;
  try_except
    (open_and_dump E filename (child_data child) ;;
     print (MsgCreated filename))
    (fun _ => print (MsgFailed filename)).

(** Line 65: ['layout' not in data or 'children' not in data['layout']]. *)
Definition lacks_layout_children (data : json) : result bool :=
  (has_layout <- py_contains (str "layout") data ;;
   if negb has_layout then Ok true
   else
     layout <- py_getitem data (str "layout") ;;
     has_children <- py_contains (str "children") layout ;;
     Ok (negb has_children))%result.

(** Lines 46-100. *)
Definition convert_ui_json_to_multiple_files (input_file : loaded) : M bool :=
  match input_file with
  | NotFound => print MsgNotFound ;; ret false
  | InvalidJSON => print MsgInvalidJSON ;; ret false
  | Unreadable e => raise e
  | Loaded data =>
      mkdir E ;;
      lacking <- lift (lacks_layout_children data) ;;
      if lacking then print MsgSchema ;; ret false
      else
        layout <- lift (py_getitem data (str "layout")) ;;
        children <- lift (py_getitem layout (str "children")) ;;
        items <- lift (py_iter children) ;;
        let named_children := find_named_children items in
        print (MsgFound (length named_children)) ;;
        for_each named_children write_child ;;
        print MsgCompleted ;;
        ret true
  end.

(** Lines 102-124, with the exit status of the process: an exception that
    nothing catches ends the interpreter with status 1. *)
Definition main (input_file : loaded) (w : world) : N * world :=
  match (print MsgHeader ;; convert_ui_json_to_multiple_files input_file) w with
  | (Ok true, w') => (0%N, (print MsgSuccessful w').2)
  | (Ok false, w') => (1%N, (print MsgConversionFailed w').2)
  | (Raise _, w') => (1%N, w')
  end.
End Converter.

(** ** What a turn of the loop leaves behind *)

Section Writes.
Variable E : env.

(** What an attempt to write [child] to the file [f] leaves in the file:
    nothing new when the file cannot be opened, else whatever [json.dump]
    got to write. *)
Definition written (f : pystr) (child : json) : option string :=
  if can_open E f then
    Some match json_dump E (child_data child) with
         | Dumped text => text
         | DumpFailed partial _ => partial
         end
  else None.

(** The line that the attempt prints. *)
Definition reported (f : pystr) (child : json) : event :=
  if can_open E f then
    match json_dump E (child_data child) with
    | Dumped _ => MsgCreated f
    | DumpFailed _ _ => MsgFailed f
    end
  else MsgFailed f.

Definition after_write (w : world) (fc : pystr * json) : world :=
  {| dir_exists := dir_exists w;
     files := match written fc.1 fc.2 with
              | Some text => <[fc.1 := text]> (files w)
              | None => files w
              end;
     stdout := stdout w ++ [reported fc.1 fc.2] |}.
End Writes.

(** File by file, a sequence of writes either leaves the file alone or puts
    a text into it that does not depend on what was there. *)
Definition keywise (F : gmap (list N) string -> gmap (list N) string) : Prop :=
  forall f,
    (forall m, F m !! f = m !! f) \/ (exists text, forall m, F m !! f = Some text).

(** * The surroundings of the examples *)

(** ** Equality of values, to look a record up in a table *)

#[global] Instance spec_float_eq_dec : EqDecision spec_float.
Proof. solve_decision. Defined.

Fixpoint json_eqb (a b : json) : bool :=
  match a, b with
  | JNull, JNull => true
  | JBool x, JBool y => bool_decide (x = y)
  | JInt x, JInt y => bool_decide (x = y)
  | JFloat x, JFloat y => bool_decide (x = y)
  | JString x, JString y => bool_decide (x = y)
  | JArray x, JArray y =>
      (fix all2 (x y : list json) : bool :=
         match x, y with
         | [], [] => true
         | u :: x', v :: y' => json_eqb u v && all2 x' y'
         | _, _ => false
         end) x y
  | JObject x, JObject y =>
      (fix all2 (x y : list (pystr * json)) : bool :=
         match x, y with
         | [], [] => true
         | (j, u) :: x', (k, v) :: y' =>
             bool_decide (j = k) && json_eqb u v && all2 x' y'
         | _, _ => false
         end) x y
  | _, _ => false
  end.

(** An encoder and a decoder that know the records of a table: each record
    with the text that [json.dump(..., indent=2, ensure_ascii=False)] writes
    for it.  On another value the encoder raises before it writes. *)
Definition table_dump (table : list (json * string)) (v : json) : dump_result :=
  match List.find (fun entry => json_eqb entry.1 v) table with
  | Some entry => Dumped entry.2
  | None => DumpFailed EmptyString ValueError
  end.

Definition table_load (table : list (json * string)) (text : string) : option json :=
  match List.find (fun entry => bool_decide (entry.2 = text)) table with
  | Some entry => Some entry.1
  | None => None
  end.

Definition quoted (s : string) : string :=
  String (Ascii.ascii_of_nat 34) (s +:+ String (Ascii.ascii_of_nat 34) EmptyString).

Definition lines (l : list string) : string :=
  String.concat (String (Ascii.ascii_of_nat 10) EmptyString) l.

(** The text of [{"layout": {"children": [child]}}], from the lines of the
    text of [child]. *)
Definition record_text (child_lines : list string) : string :=
  lines (app ["{"; "  " +:+ quoted "layout" +:+ ": {";
              "    " +:+ quoted "children" +:+ ": ["]
           (app ((fun line => "      " +:+ line) <$> child_lines)
              ["    ]"; "  }"; "}"]))%string.

Definition named_ok : json := JObject [(str "name", JString (str "ok"))].
Definition unnamed_x : json := JObject [(str "x", JInt 1)].

Definition demo_table : list (json * string) :=
  [ (child_data named_ok,
     record_text ["{"; "  " +:+ quoted "name" +:+ ": " +:+ quoted "ok"; "}"]);
    (child_data unnamed_x,
     record_text ["{"; "  " +:+ quoted "x" +:+ ": 1"; "}"]);
    (child_data (JObject [(str "name", JString (str "first"))]),
     record_text ["{"; "  " +:+ quoted "name" +:+ ": " +:+ quoted "first"; "}"]);
    (child_data (JString (str "a")), record_text [quoted "a"]);
    (child_data (JString (str "b")), record_text [quoted "b"]) ]%string.

(** The output directory can be made; [openable] tells which files can be
    opened for writing. *)
Definition demo_env (openable : pystr -> bool) : env :=
  {| mkdir_ok := true; can_open := openable; json_dump := table_dump demo_table |}.

Definition empty_world : world :=
  {| dir_exists := false; files := ∅; stdout := [] |}.

Definition document (children : json) : json :=
  JObject [(str "layout", JObject [(str "children", children)])].

(** * Notions for the further properties *)

(** [isinstance(v, str)]. *)
Definition is_text (v : json) : bool :=
  match v with
  | JString _ => true
  | _ => false
  end.

(** [stored_name obj v]: the value [v] sits under a key [name] that the
    resolver can reach in [obj], in [obj["params"]], in [obj] itself, or in
    an entry of [obj["children"]], at any depth. *)
Inductive stored_name : json -> json -> Prop :=
| stored_in_params (o p : list (pystr * json)) (v : json) :
    dict_get (str "params") o = Some (JObject p) ->
    dict_get (str "name") p = Some v ->
    stored_name (JObject o) v
| stored_direct (o : list (pystr * json)) (v : json) :
    dict_get (str "name") o = Some v ->
    stored_name (JObject o) v
| stored_in_child (o : list (pystr * json)) (cs : list json) (c v : json) :
    dict_get (str "children") o = Some (JArray cs) ->
    c ∈ cs ->
    stored_name c v ->
    stored_name (JObject o) v.

(** The positional name and file name of the child at index [i], lines 42
    and 81. *)
Definition fallback_name (i : nat) : pystr := str "child_" ++ str_of_int i.

(** * Properties *)

(** ** Name resolution *)

Lemma dict_case_get {A} (k : pystr) (found : json -> A) (absent : A) o :
  dict_case k found absent o =
  match dict_get k o with Some v => found v | None => absent end.
Proof.
  induction o as [|[k' v] o IH]; simpl; [done|].
  by destruct (pystr_eqb k k').
Qed.

(** The loop of lines 25-28 returns the first truthy result, or [None]. *)
Lemma first_name_find (f : json -> json) (l : list json) :
  (fix first_name (l : list json) : json :=
     match l with
     | [] => JNull
     | child :: l' => let name := f child in if truthy name then name else first_name l'
     end) l
  = default JNull (List.find truthy (f <$> l)).
Proof.
  induction l as [|c l IH]; simpl; [done|].
  destruct (truthy (f c)); [done|apply IH].
Qed.

(** The function, one level unfolded, with [dict_get] throughout. *)
Lemma extract_name_from_object_eq (o : list (pystr * json)) :
  extract_name_from_object (JObject o) =
  match params_name o with
  | Some v => v
  | None =>
      match dict_get (str "name") o with
      | Some v => v
      | None =>
          match dict_get (str "children") o with
          | Some (JArray cs) =>
              default JNull (List.find truthy (extract_name_from_object <$> cs))
          | _ => JNull
          end
      end
  end.
Proof.
  simpl. destruct (params_name o); [done|].
  destruct (dict_get (str "name") o); [done|].
  rewrite dict_case_get.
  destruct (dict_get (str "children") o) as [[]|]; try done.
  apply first_name_find.
Qed.

Lemma find_named_children_from_lookup (children : list json) (k i : nat) (child : json) :
  children !! i = Some child ->
  find_named_children_from k children !! i =
  Some (let name := extract_name_from_object child in
        if truthy name then name else JString (str "child_" ++ str_of_int (k + i)),
        child).
Proof.
  revert k i. induction children as [|c rest IH]; intros k i Hi; [done|].
  destruct i as [|i]; simpl in *.
  - injection Hi as ->. rewrite Nat.add_0_r. by destruct (truthy _).
  - rewrite (IH (S k) i Hi). by rewrite Nat.add_succ_r.
Qed.

Lemma find_named_children_lookup (children : list json) (i : nat) (child : json) :
  children !! i = Some child ->
  find_named_children children !! i =
  Some (let name := extract_name_from_object child in
        if truthy name then name else JString (str "child_" ++ str_of_int i),
        child).
Proof. apply find_named_children_from_lookup. Qed.

Lemma find_named_children_from_length (children : list json) (k : nat) :
  length (find_named_children_from k children) = length children.
Proof. revert k. induction children; intros k; simpl; [done|]. by rewrite IHchildren. Qed.

Lemma find_find_app_skip (pre : list json) (c : json) (post : list json) :
  Forall (fun d => truthy d = false) pre -> truthy c = true ->
  List.find truthy (pre ++ c :: post) = Some c.
Proof.
  induction 1 as [|d pre Hd _ IH]; intros Hc; simpl.
  - by rewrite Hc.
  - rewrite Hd. by apply IH.
Qed.

(** C1: the resolved name of the child at index [i] is the value under
    [params.name] when [params] is a mapping with a [name] entry, else the
    value of the child's own [name] field, else the first non-empty result of
    the same search over the entries of its [children] sequence in order;
    when that gives nothing the name is [child_<i>], [i] counted from zero in
    the original sequence.  The child
    [{"params": {"name": "A"}, "name": "B"}] resolves to ["A"]. *)
Theorem name_resolution_order (children : list json) (i : nat) (child : json) :
  children !! i = Some child ->
  let found := extract_name_from_object child in
  find_named_children children !! i =
    Some (if truthy found then found else JString (str "child_" ++ str_of_int i), child)
  /\ found =
     match child with
     | JObject o =>
         match params_name o with
         | Some v => v
         | None =>
             match dict_get (str "name") o with
             | Some v => v
             | None =>
                 match dict_get (str "children") o with
                 | Some (JArray cs) =>
                     default JNull (List.find truthy (extract_name_from_object <$> cs))
                 | _ => JNull
                 end
             end
         end
     | _ => JNull
     end
  /\ extract_name_from_object
       (JObject [(str "params", JObject [(str "name", JString (str "A"))]);
                 (str "name", JString (str "B"))])
     = JString (str "A").
Proof.
  intros Hi found. split; [|split].
  - by rewrite (find_named_children_lookup _ _ _ Hi).
  - subst found. destruct child; try done. apply extract_name_from_object_eq.
  - done.
Qed.

Lemma name_resolution_order_witness :
  let child := JObject [(str "params", JObject [(str "name", JString (str "A"))]);
                        (str "name", JString (str "B"))] in
  find_named_children [JNull; child] !! 1 = Some (JString (str "A"), child).
Proof.
  intros child.
  exact (proj1 (name_resolution_order [JNull; child] 1 child eq_refl)).
Defined.

(** The first step looks at the key only: whatever is stored under
    [params.name] is returned. *)
Lemma extract_params_name (o p : list (pystr * json)) (v : json) :
  dict_get (str "params") o = Some (JObject p) ->
  dict_get (str "name") p = Some v ->
  extract_name_from_object (JObject o) = v.
Proof.
  intros Hp Hn. rewrite extract_name_from_object_eq.
  unfold params_name. by rewrite Hp, Hn.
Qed.

(** C2, as the code has it: the first step of name resolution uses
    [params.name] whenever [params] is a mapping that has the key [name],
    whatever kind of value is stored there (text or not); when [params] is
    not such a mapping the result comes from the later steps. *)
Theorem params_name_any_value (o : list (pystr * json)) :
  (forall p v,
     dict_get (str "params") o = Some (JObject p) ->
     dict_get (str "name") p = Some v ->
     extract_name_from_object (JObject o) = v)
  /\ (params_name o = None ->
      extract_name_from_object (JObject o) =
      match dict_get (str "name") o with
      | Some v => v
      | None =>
          match dict_get (str "children") o with
          | Some (JArray cs) =>
              default JNull (List.find truthy (extract_name_from_object <$> cs))
          | _ => JNull
          end
      end).
Proof.
  split.
  - intros p v. apply extract_params_name.
  - intros Hp. rewrite extract_name_from_object_eq. by rewrite Hp.
Qed.

Lemma params_name_any_value_witness :
  extract_name_from_object
    (JObject [(str "params", JObject [(str "name", JBool true)])]) = JBool true
  /\ extract_name_from_object
       (JObject [(str "params", JArray []); (str "name", JString (str "B"))])
     = JString (str "B").
Proof.
  split.
  - exact (proj1 (params_name_any_value
                    [(str "params", JObject [(str "name", JBool true)])])
             [(str "name", JBool true)] (JBool true) eq_refl eq_refl).
  - exact (proj2 (params_name_any_value
                    [(str "params", JArray []); (str "name", JString (str "B"))])
             eq_refl).
Defined.

(** C2 fails as stated: the number 5 under [params.name] is not text, yet
    the first step applies and 5 is the resolved name; the later steps, which
    the same child without its [params] entry goes through, would have given
    ["B"]. *)
Lemma params_name_non_text_counterexample :
  let rest := [(str "name", JString (str "B"))] in
  let child := JObject ((str "params", JObject [(str "name", JInt 5)]) :: rest) in
  extract_name_from_object child = JInt 5
  /\ extract_name_from_object (JObject rest) = JString (str "B")
  /\ find_named_children [child] = [(JInt 5, child)].
Proof. done. Qed.

(** C10: a child whose resolved name is falsy (the empty text, null, false
    and the number 0 are) gets the positional name [child_<index>], and the
    search through a [children] sequence passes over entries that resolve to
    a falsy value and returns the name of the first entry that resolves to a
    truthy one. *)
Theorem falsy_name_is_absence :
  (truthy (JString []) = false /\ truthy JNull = false
   /\ truthy (JBool false) = false /\ truthy (JInt 0) = false)
  /\ (forall (children : list json) (i : nat) (child : json),
        children !! i = Some child ->
        truthy (extract_name_from_object child) = false ->
        find_named_children children !! i =
        Some (JString (str "child_" ++ str_of_int i), child))
  /\ (forall (o : list (pystr * json)) (pre : list json) (c : json) (post : list json),
        params_name o = None ->
        dict_get (str "name") o = None ->
        dict_get (str "children") o = Some (JArray (pre ++ c :: post)) ->
        Forall (fun d => truthy (extract_name_from_object d) = false) pre ->
        truthy (extract_name_from_object c) = true ->
        extract_name_from_object (JObject o) = extract_name_from_object c).
Proof.
  split; [done|]. split.
  - intros children i child Hi Hf.
    rewrite (find_named_children_lookup _ _ _ Hi). simpl. by rewrite Hf.
  - intros o pre c post Hp Hn Hc Hpre Htrue.
    rewrite extract_name_from_object_eq, Hp, Hn, Hc.
    rewrite fmap_app, fmap_cons.
    rewrite (find_find_app_skip _ (extract_name_from_object c)); [done| |done].
    by apply Forall_fmap.
Qed.

Lemma falsy_name_is_absence_witness :
  let empty := JObject [(str "name", JString [])] in
  let zero := JObject [(str "params", JObject [(str "name", JInt 0)])] in
  let named := JObject [(str "name", JString (str "ok"))] in
  find_named_children [named; empty] !! 1
    = Some (JString (str "child_1"), empty)
  /\ extract_name_from_object
       (JObject [(str "children", JArray [empty; zero; named; empty])])
     = JString (str "ok").
Proof.
  intros empty zero named.
  destruct falsy_name_is_absence as (_ & Hfallback & Hskip).
  split.
  - exact (Hfallback [named; empty] 1 empty eq_refl eq_refl).
  - apply (Hskip [(str "children", JArray [empty; zero; named; empty])]
             [empty; zero] named [empty]); try reflexivity.
    repeat constructor.
Defined.

(** ** The file name *)

Section SanitizerProperties.
Context {U : UnicodeDB}.

Lemma kept_char (c : N) : kept (JString [c]) = Ok (keeps c).
Proof.
  unfold kept, keeps, str_isalnum. simpl.
  by rewrite andb_true_r.
Qed.

Lemma join_kept_chars (s : pystr) :
  join_kept ((fun c => JString [c]) <$> s) = Ok (List.filter keeps s).
Proof.
  induction s as [|c s IH]; [done|].
  rewrite fmap_cons. cbn [join_kept]. rewrite kept_char, IH. simpl.
  by destruct (keeps c).
Qed.

Lemma keeps_not_space (c : N) : keeps c = true -> isspace_cp c = false.
Proof.
  unfold keeps, pystr_eqb. intros H.
  apply orb_true_iff in H as [H|H]; [apply orb_true_iff in H as [H|H]|].
  - by apply isalnum_not_space.
  - apply bool_decide_eq_true in H. injection H as ->.
    by rewrite isspace_ascii.
  - apply bool_decide_eq_true in H. injection H as ->.
    by rewrite isspace_ascii.
Qed.

Lemma rstrip_no_space (s : pystr) :
  Forall (fun c => isspace_cp c = false) s -> rstrip s = s.
Proof.
  induction 1 as [|c s Hc _ IH]; [done|].
  unfold rstrip in *. simpl. by rewrite IH, Hc.
Qed.

Lemma rstrip_filter_keeps (s : pystr) :
  rstrip (List.filter keeps s) = List.filter keeps s.
Proof.
  apply rstrip_no_space, Forall_forall. intros c Hc.
  apply list_elem_of_In, filter_In in Hc as [_ Hc].
  by apply keeps_not_space.
Qed.

Lemma filter_keeps_ascii (s : pystr) :
  Forall (fun c => (c < 128)%N) s ->
  List.filter keeps s =
  List.filter (fun c => ascii_isalnum c || pystr_eqb [c] (str "-")
                        || pystr_eqb [c] (str "_")) s.
Proof.
  induction 1 as [|c s Hc _ IH]; [done|].
  simpl. unfold keeps at 1. by rewrite (isalnum_ascii c Hc), IH.
Qed.

(** C3: on a text name the sanitizer keeps the alphanumeric characters,
    the hyphens and the underscores, in their order, drops every other
    character, and gives [unnamed] when nothing is left;
    ["My Button!#1"] becomes ["MyButton1"]. *)
Theorem safe_name_of_text (s : pystr) :
  safe_name (JString s) =
    Ok (let filtered :=
          List.filter (fun c => isalnum_cp c || pystr_eqb [c] (str "-")
                                || pystr_eqb [c] (str "_")) s in
        if bool_decide (filtered = []) then str "unnamed" else filtered)
  /\ safe_name (JString (str "My Button!#1")) = Ok (str "MyButton1").
Proof.
  assert (Hgen : forall t, safe_name (JString t) =
            Ok (if bool_decide (List.filter keeps t = []) then str "unnamed"
                else List.filter keeps t)).
  { intros t. unfold safe_name. simpl.
    rewrite join_kept_chars. simpl. by rewrite rstrip_filter_keeps. }
  split; [apply Hgen|].
  rewrite Hgen, filter_keeps_ascii; [done|].
  repeat constructor.
Qed.

(** The file name of an ASCII text name, by computation. *)
Lemma filename_of_ascii_text (s : pystr) :
  Forall (fun c => (c < 128)%N) s ->
  filename_of (JString s) =
  Ok ((let filtered :=
         List.filter (fun c => ascii_isalnum c || pystr_eqb [c] (str "-")
                               || pystr_eqb [c] (str "_")) s in
       if bool_decide (filtered = []) then str "unnamed" else filtered)
      ++ str ".json").
Proof.
  intros Hs. unfold filename_of, safe_name. simpl.
  rewrite join_kept_chars. simpl.
  by rewrite rstrip_filter_keeps, (filter_keeps_ascii s Hs).
Qed.
End SanitizerProperties.

(** ** The converter *)

Section ConverterProperties.
Context {U : UnicodeDB}.
Variable E : env.

(** One turn of the loop never raises once the name is sanitized: every
    exception of the write is caught. *)
Lemma write_child_ok (name child : json) (f : pystr) (w : world) :
  filename_of name = Ok f ->
  write_child E (name, child) w = (Ok (), after_write E w (f, child)).
Proof.
  intros Hf. unfold write_child, mbind, lift, try_except, open_and_dump.
  rewrite Hf. unfold after_write, written, reported. simpl.
  destruct (can_open E f); [|done].
  by destruct (json_dump E (child_data child)).
Qed.

(** An exception of the sanitizer is outside the [try]: it leaves the loop
    body at once. *)
Lemma write_child_raise (name child : json) (e : exn) (w : world) :
  filename_of name = Raise e ->
  write_child E (name, child) w = (Raise e, w).
Proof.
  intros Hf. unfold write_child, mbind, lift. by rewrite Hf.
Qed.

(** The loop over children whose names all sanitize: it goes through all
    of them. *)
Lemma for_each_sanitized (named : list (json * json)) (fs : list pystr) (w : world) :
  Forall2 (fun nc f => filename_of nc.1 = Ok f) named fs ->
  for_each named (write_child E) w =
  (Ok (), foldl (after_write E) w (zip fs (named.*2))).
Proof.
  intros H. revert w. induction H as [|[name child] f named fs Hf _ IH]; intros w.
  - done.
  - simpl in Hf. cbn [for_each zip zip_with fmap list_fmap snd]. unfold mbind at 1.
    rewrite (write_child_ok _ _ _ _ Hf). apply IH.
Qed.

Lemma foldl_after_write_stdout (l : list (pystr * json)) (w : world) :
  stdout (foldl (after_write E) w l) =
  stdout w ++ ((fun fc => reported E fc.1 fc.2) <$> l).
Proof.
  revert w. induction l as [|fc l IH]; intros w; simpl.
  - by rewrite app_nil_r.
  - rewrite IH. simpl. by rewrite <- app_assoc.
Qed.

(** A file that no child of the list is written to stays as it was. *)
Lemma foldl_after_write_other (l : list (pystr * json)) (w : world) (f : pystr) :
  f ∉ l.*1 -> files (foldl (after_write E) w l) !! f = files w !! f.
Proof.
  revert w. induction l as [|[f' c] l IH]; intros w Hf; simpl; [done|].
  rewrite fmap_cons in Hf. apply not_elem_of_cons in Hf as [Hne Hf].
  rewrite (IH _ Hf). unfold after_write. simpl.
  destruct (written E f' c); [|done]. simpl. by rewrite lookup_insert_ne.
Qed.

(** The last child written to [f] decides what [f] holds. *)
Lemma foldl_after_write_last (pre post : list (pystr * json)) (w : world)
    (f : pystr) (c : json) (text : string) :
  (f ∉ post.*1) -> written E f c = Some text ->
  files (foldl (after_write E) w (pre ++ (f, c) :: post)) !! f = Some text.
Proof.
  intros Hpost Hw. rewrite foldl_app. simpl.
  rewrite (foldl_after_write_other _ _ _ Hpost).
  unfold after_write at 1. simpl. rewrite Hw. simpl. apply lookup_insert_eq.
Qed.
Lemma find_named_children_from_snd (children : list json) (k : nat) :
  (find_named_children_from k children).*2 = children.
Proof.
  revert k. induction children as [|c rest IH]; intros k; simpl; [done|].
  rewrite IH. by destruct (truthy _).
Qed.

Lemma find_named_children_snd (children : list json) :
  (find_named_children children).*2 = children.
Proof. apply find_named_children_from_snd. Qed.

Lemma find_named_children_length (children : list json) :
  length (find_named_children children) = length children.
Proof. apply find_named_children_from_length. Qed.

(** The test of line 65 on a mapping. *)
Lemma lacks_layout_children_object (d : list (pystr * json)) :
  lacks_layout_children (JObject d) =
  match dict_get (str "layout") d with
  | None => Ok true
  | Some layout =>
      (has_children <- py_contains (str "children") layout ;;
       Ok (negb has_children))%result
  end.
Proof.
  unfold lacks_layout_children, py_contains at 1, py_getitem. simpl.
  by destruct (dict_get (str "layout") d) as [layout|].
Qed.

(** The run on a document that fails the test of line 65. *)
Lemma convert_lacking (data : json) (w : world) :
  mkdir_ok E = true ->
  lacks_layout_children data = Ok true ->
  convert_ui_json_to_multiple_files E (Loaded data) w =
  (Ok false, logged MsgSchema (with_dir w)).
Proof.
  intros Hm Hl. unfold convert_ui_json_to_multiple_files, mbind, mkdir, lift.
  by rewrite Hm, Hl.
Qed.

(** The run on a document whose [layout.children] is a sequence: the loop
    decides. *)
Lemma convert_children (d l : list (pystr * json)) (cs : list json) (w : world) :
  mkdir_ok E = true ->
  dict_get (str "layout") d = Some (JObject l) ->
  dict_get (str "children") l = Some (JArray cs) ->
  convert_ui_json_to_multiple_files E (Loaded (JObject d)) w =
  match for_each (find_named_children cs) (write_child E)
          (logged (MsgFound (length cs)) (with_dir w)) with
  | (Ok _, w') => (Ok true, logged MsgCompleted w')
  | (Raise e, w') => (Raise e, w')
  end.
Proof.
  intros Hm Hl Hc.
  unfold convert_ui_json_to_multiple_files, mbind, mkdir, lift.
  rewrite Hm, lacks_layout_children_object, Hl. simpl.
  rewrite Hc, bool_decide_eq_true_2 by eauto. simpl.
  rewrite Hl. simpl. rewrite Hc. simpl.
  rewrite find_named_children_length.
  unfold logged, with_dir. simpl.
  by destruct (for_each _ _ _) as [[[]|e] w'].
Qed.

(** C4, as the code has it: when the document is a mapping without the key
    [layout], or its [layout] is a mapping without the key [children], the
    converter prints the SchemaError line and returns failure, and no file
    of the output directory is written (the directory itself has been made
    by then).  Values of another shape are not covered. *)
Theorem missing_layout_children_fails (d : list (pystr * json)) (w : world) :
  mkdir_ok E = true ->
  dict_get (str "layout") d = None
  \/ (exists l, dict_get (str "layout") d = Some (JObject l)
                /\ dict_get (str "children") l = None) ->
  let run := convert_ui_json_to_multiple_files E (Loaded (JObject d)) w in
  run.1 = Ok false
  /\ files run.2 = files w
  /\ stdout run.2 = stdout w ++ [MsgSchema]
  /\ dir_exists run.2 = true.
Proof.
  intros Hm Hd run. subst run. rewrite convert_lacking; [done..|].
  rewrite lacks_layout_children_object.
  destruct Hd as [->|(l & -> & Hc)]; [done|]. simpl.
  rewrite bool_decide_eq_false_2; [done|]. rewrite Hc. by intros [? ?].
Qed.


Lemma main_eq (input_file : loaded) (w : world) :
  main E input_file w =
  match convert_ui_json_to_multiple_files E input_file (logged MsgHeader w) with
  | (Ok true, w') => (0%N, logged MsgSuccessful w')
  | (Ok false, w') => (1%N, logged MsgConversionFailed w')
  | (Raise _, w') => (1%N, w')
  end.
Proof. done. Qed.




(** *** Any run of the loop

    The loop goes through the children up to the first one whose name
    does not sanitize; [done] lists the file name and the child of each
    turn that was completed. *)
Lemma for_each_run (named : list (json * json)) :
  exists (done : list (pystr * json)) (r : result unit) (k : nat),
    Forall2 (fun nc fc => filename_of nc.1 = Ok fc.1 /\ nc.2 = fc.2)
      (take k named) done
    /\ (r = Ok () \/ exists e, r = Raise e)
    /\ forall w, for_each named (write_child E) w = (r, foldl (after_write E) w done).
Proof.
  induction named as [|[name c] named (done & r & k & Hdone & Hr & Hrun)].
  - exists [], (Ok ()), 0. split; [constructor|]. split; [by left|done].
  - destruct (filename_of name) as [f|e] eqn:Hf.
    + exists ((f, c) :: done), r, (S k). split; [|split; [done|]].
      * simpl. by constructor.
      * intros w. cbn [for_each foldl]. unfold mbind.
        rewrite (write_child_ok _ _ _ _ Hf). apply Hrun.
    + exists [], (Raise e), 0. split; [constructor|]. split; [eauto|].
      intros w. cbn [for_each foldl]. unfold mbind.
      by rewrite (write_child_raise _ _ _ _ Hf).
Qed.

(** The run on a parsed document: either it reaches the loop, or it ends
    before, with no file written. *)
Lemma convert_loaded_run (data : json) :
  (exists layout children items,
      py_getitem data (str "layout") = Ok layout
      /\ py_getitem layout (str "children") = Ok children
      /\ py_iter children = Ok items
      /\ forall w,
          convert_ui_json_to_multiple_files E (Loaded data) w =
          match for_each (find_named_children items) (write_child E)
                  (logged (MsgFound (length items)) (with_dir w)) with
          | (Ok _, w') => (Ok true, logged MsgCompleted w')
          | (Raise e, w') => (Raise e, w')
          end)
  \/ (exists r lines,
        (lines = [] \/ lines = [MsgSchema])
        /\ forall w,
            let run := convert_ui_json_to_multiple_files E (Loaded data) w in
            run.1 = r /\ files run.2 = files w
            /\ stdout run.2 = stdout w ++ lines).
Proof.
  unfold convert_ui_json_to_multiple_files, mbind, mkdir, lift.
  assert (Hraise : forall (e : exn) (f : world -> world),
            (forall w, files (f w) = files w /\ stdout (f w) = stdout w) ->
            exists (r : result bool) lines,
              (lines = [] \/ lines = [MsgSchema])
              /\ forall w, (Raise e, f w).1 = r /\ files (Raise (A:=bool) e, f w).2 = files w
                           /\ stdout (Raise (A:=bool) e, f w).2 = stdout w ++ lines).
  { intros e f Hf. exists (Raise e), []. split; [by left|]. intros w. simpl.
    destruct (Hf w) as [-> ->]. by rewrite app_nil_r. }
  destruct (mkdir_ok E); [|right; by apply (Hraise OSError (fun w => w))].
  destruct (lacks_layout_children data) as [[]|e];
    [right; exists (Ok false), [MsgSchema]; split; [by right|done]|
    |right; by apply (Hraise e with_dir)].
  destruct (py_getitem data _) as [layout|e] eqn:Hl;
    [|right; by apply (Hraise e with_dir)].
  destruct (py_getitem layout _) as [children|e] eqn:Hc;
    [|right; by apply (Hraise e with_dir)].
  destruct (py_iter children) as [items|e] eqn:Hi;
    [|right; by apply (Hraise e with_dir)].
  left. exists layout, children, items. do 3 (split; [done|]). intros w.
  rewrite find_named_children_length. unfold logged, with_dir. simpl.
  by destruct (for_each _ _ _) as [[[]|] ?].
Qed.

(** *** What a sequence of writes does to the directory *)


Lemma foldl_after_write_files (done : list (pystr * json)) :
  exists F, keywise F /\ forall w, files (foldl (after_write E) w done) = F (files w).
Proof.
  induction done as [|[f c] done (F & HF & Hfiles)].
  - exists (fun m => m). split; [by left|done].
  - exists (fun m => F match written E f c with
                     | Some text => <[f := text]> m
                     | None => m
                     end).
    split; [|intros w; simpl; by rewrite Hfiles].
    intros f'. destruct (HF f') as [Hid|[text Hconst]]; [|right; eauto].
    destruct (written E f c) as [text|]; [|by left].
    destruct (decide (f = f')) as [->|Hne].
    + right. exists text. intros m. rewrite Hid. apply lookup_insert_eq.
    + left. intros m. rewrite Hid. by apply lookup_insert_ne.
Qed.
Lemma reported_cases (f : pystr) (c : json) :
  reported E f c = MsgCreated f \/ reported E f c = MsgFailed f.
Proof.
  unfold reported. destruct (can_open E f); [|by right].
  destruct (json_dump E (child_data c)); [by left|by right].
Qed.

Lemma reported_created (f f' : pystr) (c : json) :
  reported E f' c = MsgCreated f ->
  f' = f /\ exists text, json_dump E (child_data c) = Dumped text
                        /\ written E f c = Some text.
Proof.
  unfold reported, written. destruct (can_open E f') eqn:Hopen; [|done].
  destruct (json_dump E (child_data c)) as [text|] eqn:Hdump; [|done].
  intros [= ->]. rewrite Hopen. eauto.
Qed.

(** The line [Created f] that no later line about [f] follows comes from
    the last turn of the loop that wrote to [f]. *)
Lemma last_created (done : list (pystr * json)) (f : pystr)
    (before after : list event) :
  (fun fc => reported E fc.1 fc.2) <$> done = before ++ MsgCreated f :: after ->
  (MsgCreated f ∉ after) -> (MsgFailed f ∉ after) ->
  exists l1 c l2 text,
    done = l1 ++ (f, c) :: l2 /\ (f ∉ l2.*1)
    /\ json_dump E (child_data c) = Dumped text /\ written E f c = Some text.
Proof.
  intros Heq Hnc Hnf.
  apply fmap_app_inv in Heq as (l1 & l2' & Hbefore & Hrest & ->).
  symmetry in Hrest.
  apply fmap_cons_inv in Hrest as ([f' c] & l2 & Hrep & Hafter & ->).
  symmetry in Hrep. simpl in Hrep.
  apply reported_created in Hrep as (-> & text & Hdump & Hw).
  exists l1, c, l2, text. split; [done|]. split; [|done].
  intros Hin. apply list_elem_of_fmap in Hin as ([f' c'] & Hf' & Hin).
  simpl in Hf'. subst f'.
  assert (Hrep : reported E f c' ∈ after).
  { rewrite Hafter. apply (list_elem_of_fmap_2 (fun fc => reported E fc.1 fc.2) _ _ Hin). }
  destruct (reported_cases f c') as [Hr|Hr]; rewrite Hr in Hrep; done.
Qed.

(** The lines of a run that reached the loop: [Found], one report per
    completed turn, and [Completed] when the loop ended. *)
Lemma created_among_reports (n : nat) (reports tail : list event) (f : pystr)
    (before after : list event) :
  MsgFound n :: reports ++ tail = before ++ MsgCreated f :: after ->
  tail = [] \/ tail = [MsgCompleted] ->
  exists before' after',
    reports = before' ++ MsgCreated f :: after'
    /\ forall e, e ∈ after' -> e ∈ after.
Proof.
  intros Heq Htail. destruct before as [|b before]; [done|].
  injection Heq as _ Heq. destruct Htail as [-> | ->].
  - rewrite app_nil_r in Heq. by exists before, after.
  - destruct after as [|a after _] using rev_ind.
    + apply app_inj_tail in Heq as [_ ?]. done.
    + rewrite app_comm_cons, app_assoc in Heq.
      apply app_inj_tail in Heq as [Heq _].
      exists before, after. split; [done|].
      intros e He. apply elem_of_app. by left.
Qed.

(** C6: take a file whose last line on the standard output of the run is
    [Created], so that it was written in full and nothing was written
    over it afterwards.  It holds the text that the encoder produced for
    [{"layout": {"children": [child]}}], where [child] is the entry of the
    input's children whose sanitized name is the file's name; hence a
    decoder that inverts the encoder reads that document back, with a
    single child equal to the original one. *)
Theorem output_round_trip (json_load : string -> option json) (data : json)
    (w : world) (f : pystr) (before after : list event) :
  (forall v text, json_dump E v = Dumped text -> json_load text = Some v) ->
  let run := convert_ui_json_to_multiple_files E (Loaded data) w in
  stdout run.2 = stdout w ++ before ++ MsgCreated f :: after ->
  (MsgCreated f ∉ after) -> (MsgFailed f ∉ after) ->
  exists layout children items i name child text,
    py_getitem data (str "layout") = Ok layout
    /\ py_getitem layout (str "children") = Ok children
    /\ py_iter children = Ok items
    /\ items !! i = Some child
    /\ find_named_children items !! i = Some (name, child)
    /\ filename_of name = Ok f
    /\ files run.2 !! f = Some text
    /\ json_load text =
         Some (JObject [(str "layout", JObject [(str "children", JArray [child])])]).
Proof.
  intros Hcodec run Hout Hnc Hnf. subst run.
  destruct (convert_loaded_run data)
    as [(layout & children & items & Hl & Hc & Hi & Hrun)|(r & lines & Hlines & Hno)].
  2:{ destruct (Hno w) as (_ & _ & Hs). rewrite Hs in Hout.
      apply app_inv_head in Hout.
      destruct Hlines as [-> | ->]; destruct before as [|? [|? ?]]; done. }
  rewrite Hrun in Hout |- *.
  destruct (for_each_run (find_named_children items))
    as (done & r & k & Hdone & Hr & Hloop).
  rewrite Hloop in Hout |- *.
  assert (Hsplit : exists before' after',
             (fun fc => reported E fc.1 fc.2) <$> done
             = before' ++ MsgCreated f :: after'
             /\ forall e, e ∈ after' -> e ∈ after).
  { apply (created_among_reports (length items) _
             (match r with Ok _ => [MsgCompleted] | Raise _ => [] end) _ before).
    - destruct Hr as [->|[e ->]]; simpl in Hout;
        rewrite foldl_after_write_stdout in Hout; simpl in Hout;
        rewrite <- ?app_assoc in Hout; apply app_inv_head in Hout;
        simpl; by rewrite ?app_nil_r.
    - destruct Hr as [->|[e ->]]; [by right|by left]. }
  destruct Hsplit as (before' & after' & Hsplit & Hsub).
  assert (Hnc' : MsgCreated f ∉ after') by (intros H; by apply Hnc, Hsub).
  assert (Hnf' : MsgFailed f ∉ after') by (intros H; by apply Hnf, Hsub).
  destruct (last_created _ _ _ _ Hsplit Hnc' Hnf')
    as (l1 & child & l2 & text & -> & Hl2 & Hdump & Hw).
  assert (Hlook : (l1 ++ (f, child) :: l2) !! length l1 = Some (f, child))
    by apply list_lookup_middle, eq_refl.
  destruct (Forall2_lookup_r _ _ _ _ _ Hdone Hlook)
    as ([name child'] & Hnamed & Hf & Hchild).
  simpl in Hf, Hchild. subst child'.
  apply lookup_take_Some in Hnamed as [Hnamed _].
  exists layout, children, items, (length l1), name, child, text.
  do 3 (split; [done|]). split.
  { rewrite <- (find_named_children_snd items), list_lookup_fmap.
    by rewrite Hnamed. }
  do 2 (split; [done|]). split; [|by apply Hcodec].
  destruct Hr as [->|[e ->]]; simpl; by apply foldl_after_write_last.
Qed.
(** C9: there is a document with a non-text resolved name on which the
    run ends with an exception that nothing catches.  The second of three
    children has the number 5 under [params.name]; the loop writes the
    first child, then [for c in name] raises a TypeError outside the
    [try]: the run stops there, the files of the second and of the third
    child are not written, no [Failed] line is printed for them, and the
    converter does not return its failure value. *)
Theorem non_text_name_aborts (w : world) :
  mkdir_ok E = true ->
  let first := JObject [(str "name", JString (str "first"))] in
  let second := JObject [(str "params", JObject [(str "name", JInt 5)])] in
  let third := JObject [(str "name", JString (str "third"))] in
  let data :=
    JObject [(str "layout",
              JObject [(str "children", JArray [first; second; third])])] in
  let run := convert_ui_json_to_multiple_files E (Loaded data) w in
  find_named_children [first; second; third]
    = [(JString (str "first"), first); (JInt 5, second);
       (JString (str "third"), third)]
  /\ safe_name (JInt 5) = Raise TypeError
  /\ run.1 = Raise TypeError
  /\ stdout run.2 =
       stdout w ++ [MsgFound 3; reported E (str "first.json") first]
  /\ (forall f, f <> str "first.json" -> files run.2 !! f = files w !! f)
  /\ stdout (main E (Loaded data) w).2 =
       stdout w ++ [MsgHeader; MsgFound 3; reported E (str "first.json") first]
  /\ (main E (Loaded data) w).1 = 1%N.
Proof.
  intros Hm first second third data run.
  assert (Hfirst : filename_of (JString (str "first")) = Ok (str "first.json")).
  { rewrite filename_of_ascii_text; [done|]. repeat constructor. }
  assert (Hrun : forall w0,
             convert_ui_json_to_multiple_files E (Loaded data) w0 =
             (Raise TypeError,
              after_write E (logged (MsgFound 3) (with_dir w0))
                (str "first.json", first))).
  { intros w0. subst data.
    rewrite (convert_children
               [(str "layout",
                 JObject [(str "children", JArray [first; second; third])])]
               [(str "children", JArray [first; second; third])]
               [first; second; third] w0 Hm eq_refl eq_refl).
    change (find_named_children [first; second; third])
      with [(JString (str "first"), first); (JInt 5, second);
            (JString (str "third"), third)].
    cbn [for_each]. unfold mbind.
    rewrite (write_child_ok _ _ _ _ Hfirst).
    by rewrite (write_child_raise (JInt 5) second TypeError). }
  split; [reflexivity|]. split; [reflexivity|]. subst run. rewrite Hrun.
  split; [done|]. split; [simpl; by rewrite <- app_assoc|]. split.
  - intros f Hf. simpl. destruct (written E _ _); [|done].
    by rewrite lookup_insert_ne.
  - rewrite main_eq, Hrun. simpl.
    split; [|done]. by rewrite <- !app_assoc.
Qed.
End ConverterProperties.

(** * Concrete runs *)

Lemma json_eqb_eq : forall a b, json_eqb a b = true -> a = b.
Proof.
  fix IH 1. intros [| | | | |x|x] [| | | | |y|y]; simpl; try discriminate; try done;
    try (intros H; apply bool_decide_eq_true in H; by subst).
  - intros H. f_equal. revert y H.
    induction x as [|u x IHx]; intros [|v y]; try discriminate; [done|].
    intros H. apply andb_true_iff in H as [H1 H2].
    f_equal; [by apply IH|by apply IHx].
  - intros H. f_equal. revert y H.
    induction x as [|[j u] x IHx]; intros [|[k v] y]; try discriminate; [done|].
    intros H. apply andb_true_iff in H as [H1 H2].
    apply andb_true_iff in H1 as [H0 H1].
    apply bool_decide_eq_true in H0. subst.
    f_equal; [f_equal; by apply IH|by apply IHx].
Qed.

Lemma demo_table_round_trip (v : json) (text : string) :
  table_dump demo_table v = Dumped text -> table_load demo_table text = Some v.
Proof.
  unfold table_dump.
  destruct (List.find _ demo_table) as [entry|] eqn:Hfind; [|done].
  intros [= <-]. apply find_some in Hfind as [Hin Heq].
  apply json_eqb_eq in Heq. subst v.
  simpl in Hin. by repeat destruct Hin as [<-|Hin].
Qed.

(** ** C4 *)

(** The document [{"layout": {}}]. *)
Lemma missing_layout_children_fails_witness :
  let run :=
    convert_ui_json_to_multiple_files (U := ascii_db) (demo_env (fun _ => true))
      (Loaded (JObject [(str "layout", JObject [])])) empty_world in
  run.1 = Ok false /\ files run.2 = ∅ /\ stdout run.2 = [MsgSchema]
  /\ dir_exists run.2 = true.
Proof.
  exact (missing_layout_children_fails (U := ascii_db) (demo_env (fun _ => true))
           [(str "layout", JObject [])] empty_world eq_refl
           (or_intror (ex_intro _ [] (conj eq_refl eq_refl)))).
Defined.

(** C4 fails as stated on values of the wrong shape.  When
    [layout.children] is the text ["ab"] the loop runs over its characters:
    two files are written and the converter returns success.  When [layout]
    is the number 5 the test of line 65 itself raises a TypeError: nothing is
    reported and nothing is returned. *)
Lemma wrong_shape_counterexample :
  let E := demo_env (fun _ => true) in
  let run1 :=
    convert_ui_json_to_multiple_files (U := ascii_db) E
      (Loaded (document (JString (str "ab")))) empty_world in
  let run2 :=
    convert_ui_json_to_multiple_files (U := ascii_db) E
      (Loaded (JObject [(str "layout", JInt 5)])) empty_world in
  (run1.1 = Ok true
   /\ stdout run1.2 = [MsgFound 2; MsgCreated (str "child_0.json");
                       MsgCreated (str "child_1.json"); MsgCompleted]
   /\ files run1.2 !! str "child_0.json" = Some (record_text [quoted "a"])
   /\ files run1.2 !! str "child_1.json" = Some (record_text [quoted "b"]))
  /\ (run2.1 = Raise TypeError /\ stdout run2.2 = []).
Proof. vm_compute. repeat split. Qed.

(** ** C5 *)



(** ** C6 *)

Lemma output_round_trip_witness :
  let run :=
    convert_ui_json_to_multiple_files (U := ascii_db) (demo_env (fun _ => true))
      (Loaded (document (JArray [named_ok]))) empty_world in
  exists text,
    files run.2 !! str "ok.json" = Some text
    /\ table_load demo_table text
       = Some (JObject [(str "layout", JObject [(str "children", JArray [named_ok])])]).
Proof.
  destruct (output_round_trip (U := ascii_db) (demo_env (fun _ => true))
              (table_load demo_table) (document (JArray [named_ok]))
              empty_world (str "ok.json") [MsgFound 1] [MsgCompleted])
    as (layout & children & items & i & name & child & text
        & Hl & Hc & Hi & Hchild & _ & _ & Hfile & Hload).
  - exact demo_table_round_trip.
  - reflexivity.
  - intros H. apply list_elem_of_singleton in H. discriminate H.
  - intros H. apply list_elem_of_singleton in H. discriminate H.
  - injection Hl as <-. injection Hc as <-. injection Hi as <-.
    destruct i as [|i]; [|done]. injection Hchild as <-.
    exists text. split; [exact Hfile|exact Hload].
Defined.

(** ** C7 *)



(** ** C9 *)

Lemma non_text_name_aborts_witness :
  let first := JObject [(str "name", JString (str "first"))] in
  let second := JObject [(str "params", JObject [(str "name", JInt 5)])] in
  let third := JObject [(str "name", JString (str "third"))] in
  let run :=
    convert_ui_json_to_multiple_files (U := ascii_db) (demo_env (fun _ => true))
      (Loaded (document (JArray [first; second; third]))) empty_world in
  run.1 = Raise TypeError
  /\ stdout run.2 = [MsgFound 3; MsgCreated (str "first.json")]
  /\ files run.2 !! str "third.json" = None.
Proof.
  intros first second third.
  destruct (non_text_name_aborts (U := ascii_db) (demo_env (fun _ => true))
              empty_world eq_refl)
    as (_ & _ & Hres & Hout & Hfiles & _).
  split; [exact Hres|]. split; [exact Hout|].
  apply (Hfiles (str "third.json")). compute_done.
Defined.

(** ** C3 and C8 *)

Lemma safe_name_of_text_witness :
  safe_name (U := ascii_db) (JString (str "a b-c_d.e")) = Ok (str "ab-c_de")
  /\ safe_name (U := ascii_db) (JString (str "!?")) = Ok (str "unnamed").
Proof.
  split.
  - exact (proj1 (safe_name_of_text (U := ascii_db) (str "a b-c_d.e"))).
  - exact (proj1 (safe_name_of_text (U := ascii_db) (str "!?"))).
Defined.


(** * Further properties *)

(** ** The resolver and [find_named_children] *)

Lemma json_ind' (P : json -> Prop) :
  P JNull -> (forall b, P (JBool b)) -> (forall z, P (JInt z)) ->
  (forall f, P (JFloat f)) -> (forall s, P (JString s)) ->
  (forall l, Forall P l -> P (JArray l)) ->
  (forall o, Forall (fun kv => P kv.2) o -> P (JObject o)) ->
  forall v, P v.
Proof.
  intros Hnull Hbool Hint Hfloat Hstr Harr Hobj.
  fix IH 1.
  intros [|b|z|f|s|l|o];
    [apply Hnull|apply Hbool|apply Hint|apply Hfloat|apply Hstr| |].
  - apply Harr. induction l as [|c l IHl]; constructor; [apply IH|apply IHl].
  - apply Hobj. induction o as [|[k c] o IHo]; constructor; [apply IH|apply IHo].
Qed.

Lemma dict_get_elem_of (k : pystr) (o : list (pystr * json)) (v : json) :
  dict_get k o = Some v -> exists k', (k', v) ∈ o.
Proof.
  induction o as [|[k' v'] o IH]; simpl; [done|].
  destruct (pystr_eqb k k').
  - intros [= ->]. exists k'. by left.
  - intros H. destruct (IH H) as [k'' Hin]. exists k''. by right.
Qed.

Lemma find_truthy_elem (l : list json) :
  default JNull (List.find truthy l) = JNull
  \/ default JNull (List.find truthy l) ∈ l.
Proof.
  induction l as [|c l IH]; simpl; [by left|].
  destruct (truthy c); simpl.
  - right. by left.
  - destruct IH as [IH|IH]; [by left|right; by right].
Qed.

Lemma fallback_name_truthy (i : nat) : truthy (JString (fallback_name i)) = true.
Proof. reflexivity. Qed.

Lemma find_named_children_from_truthy (cs : list json) (k : nat) :
  Forall (fun nc => truthy nc.1 = true) (find_named_children_from k cs).
Proof.
  revert k. induction cs as [|c cs IH]; intros k; simpl; constructor; [|apply IH].
  destruct (truthy (extract_name_from_object c)) eqn:Ht; [done|].
  apply fallback_name_truthy.
Qed.

Lemma find_named_children_from_app (a b : list json) (k : nat) :
  find_named_children_from k (a ++ b) =
  find_named_children_from k a ++ find_named_children_from (k + length a) b.
Proof.
  revert k. induction a as [|c a IH]; intros k; simpl.
  - by rewrite Nat.add_0_r.
  - by rewrite IH, Nat.add_succ_r.
Qed.

(** X1: [find_named_children] returns one pair per child, with the
    children themselves in their order, and the name of every pair is
    truthy: no child is left out, reordered or given an empty name. *)
Theorem find_named_children_shape (children : list json) :
  length (find_named_children children) = length children
  /\ (find_named_children children).*2 = children
  /\ Forall (fun nc => truthy nc.1 = true) (find_named_children children).
Proof.
  split; [apply find_named_children_from_length|].
  split; [apply find_named_children_from_snd|].
  apply find_named_children_from_truthy.
Qed.

Lemma extract_name_is_stored_deep (obj : json) :
  (extract_name_from_object obj = JNull
   \/ stored_name obj (extract_name_from_object obj))
  /\ match obj with
     | JArray l =>
         Forall (fun c => extract_name_from_object c = JNull
                          \/ stored_name c (extract_name_from_object c)) l
     | _ => True
     end.
Proof.
  induction obj as [| | | | |l IH|o IH] using json_ind'; try (split; [by left|done]).
  - split; [by left|]. eapply Forall_impl; [exact IH|]. by intros c [Hc _].
  - split; [|done]. rewrite extract_name_from_object_eq.
    destruct (params_name o) as [v|] eqn:Hp.
    { right. unfold params_name in Hp.
      destruct (dict_get (str "params") o) as [[| | | | | |p]|] eqn:Hpo; try done.
      by eapply stored_in_params. }
    destruct (dict_get (str "name") o) as [v|] eqn:Hn;
      [right; by apply stored_direct|].
    destruct (dict_get (str "children") o) as [[| | | | |cs|]|] eqn:Hc;
      try by left.
    destruct (find_truthy_elem (extract_name_from_object <$> cs)) as [Hnone|Hin];
      [by left|].
    apply list_elem_of_fmap in Hin as (c & Heq & Hin). rewrite Heq.
    destruct (dict_get_elem_of _ _ _ Hc) as [k' Hk'].
    pose proof (proj1 (Forall_forall _ _) IH _ Hk') as [_ Hcs]. simpl in Hcs.
    destruct (proj1 (Forall_forall _ _) Hcs c Hin) as [Hnull|Hstored];
      [by left|right; by eapply stored_in_child].
Qed.

(** X2: the resolver invents nothing.  Its result is [None], or a value
    stored under a key [name] of the object, of its [params], or of an entry
    reached through [children]. *)
Theorem extract_name_is_stored (obj : json) :
  extract_name_from_object obj = JNull
  \/ stored_name obj (extract_name_from_object obj).
Proof. apply extract_name_is_stored_deep. Qed.

(** X3: the names of the children at the front do not depend on what
    follows them, and the children that follow are named as if the count
    started at the length of the front: [find_named_children] of a
    concatenation is the concatenation of the two results, the second one
    numbered from [length a]. *)
Theorem find_named_children_app (a b : list json) :
  find_named_children (a ++ b) =
  find_named_children a ++ find_named_children_from (length a) b.
Proof. apply (find_named_children_from_app a b 0). Qed.

(** ** The sanitizer *)

Lemma str_inj (s t : string) : str s = str t -> s = t.
Proof.
  unfold str. intros H.
  assert (Hinj : Inj (=) (=) (fun a => Ascii.N_of_ascii a)).
  { intros a b Hab.
    rewrite <- (Ascii.ascii_N_embedding a), <- (Ascii.ascii_N_embedding b).
    by f_equal. }
  apply (inj (fmap (fun a => Ascii.N_of_ascii a))) in H.
  rewrite <- (String.string_of_list_ascii_of_string s),
    <- (String.string_of_list_ascii_of_string t).
  by f_equal.
Qed.

Lemma to_uint_nonnil (n : nat) : Nat.to_uint n <> Decimal.Nil.
Proof.
  rewrite <- (DecimalNat.Unsigned.of_to n) at 1.
  rewrite DecimalNat.Unsigned.to_of. apply DecimalFacts.unorm_nonnil.
Qed.

Lemma str_of_int_inj (i j : nat) : str_of_int i = str_of_int j -> i = j.
Proof.
  unfold str_of_int. intros H. apply str_inj in H.
  apply DecimalNat.Unsigned.to_uint_inj.
  pose proof (NilZero.usu _ (to_uint_nonnil i)) as Hi.
  pose proof (NilZero.usu _ (to_uint_nonnil j)) as Hj.
  rewrite H in Hi. rewrite Hi in Hj. by injection Hj.
Qed.

(** The decimal digits of an index are ASCII digits. *)
Lemma string_of_uint_digits (d : Decimal.uint) :
  Forall (fun c => (c < 128)%N /\ ascii_isalnum c = true)
    (str (NilEmpty.string_of_uint d)).
Proof.
  induction d; simpl; try constructor; try done.
Qed.

Lemma str_of_int_digits (i : nat) :
  Forall (fun c => (c < 128)%N /\ ascii_isalnum c = true) (str_of_int i).
Proof.
  unfold str_of_int, NilZero.string_of_uint.
  destruct (Nat.to_uint i) eqn:Hd; try (rewrite <- Hd; apply string_of_uint_digits).
  by repeat constructor.
Qed.

Section SanitizerFurther.
Context {U : UnicodeDB}.

Lemma safe_name_text_eq (t : pystr) :
  safe_name (JString t) =
  Ok (if bool_decide (List.filter keeps t = []) then str "unnamed"
      else List.filter keeps t).
Proof.
  unfold safe_name. simpl. rewrite join_kept_chars. simpl.
  by rewrite rstrip_filter_keeps.
Qed.

Lemma keeps_ascii_alnum (c : N) :
  (c < 128)%N -> ascii_isalnum c = true -> keeps c = true.
Proof. intros Hc Ha. unfold keeps. by rewrite (isalnum_ascii c Hc), Ha. Qed.

Lemma filter_keeps_all (r : pystr) :
  Forall (fun c => keeps c = true) r -> List.filter keeps r = r.
Proof.
  induction 1 as [|c r Hc _ IH]; [done|]. simpl. by rewrite Hc, IH.
Qed.

Lemma rstrip_keeps (r : pystr) :
  Forall (fun c => keeps c = true) r -> rstrip r = r.
Proof.
  intros Hr. apply rstrip_no_space.
  eapply Forall_impl; [exact Hr|]. apply keeps_not_space.
Qed.

Lemma kept_item_keeps (c : json) (s : pystr) :
  kept c = Ok true -> c = JString s -> Forall (fun a => keeps a = true) s.
Proof.
  intros Hk ->. simpl in Hk. injection Hk as Hk.
  apply orb_true_iff in Hk as [Hk|Hk]; [apply orb_true_iff in Hk as [Hk|Hk]|].
  - unfold str_isalnum in Hk. apply andb_true_iff in Hk as [_ Hk].
    apply Forall_forall. intros a Ha.
    apply list_elem_of_In in Ha.
    unfold keeps. by rewrite (proj1 (forallb_forall _ _) Hk a Ha).
  - apply bool_decide_eq_true in Hk. subst s.
    repeat constructor. unfold keeps. by destruct (isalnum_cp _).
  - apply bool_decide_eq_true in Hk. subst s.
    repeat constructor. unfold keeps. by destruct (isalnum_cp _).
Qed.

Lemma join_kept_keeps (items : list json) (r : pystr) :
  join_kept items = Ok r -> Forall (fun c => keeps c = true) r.
Proof.
  revert r. induction items as [|c items IH]; intros r; simpl.
  - by intros [= <-].
  - destruct (kept c) as [b|] eqn:Hk; [|done]. simpl.
    destruct (join_kept items) as [tail|]; [|done]. simpl.
    intros [= <-]. specialize (IH tail eq_refl).
    destruct b; [|done]. destruct c; try done.
    apply Forall_app. split; [|done]. by eapply kept_item_keeps.
Qed.

Lemma unnamed_keeps : Forall (fun c => keeps c = true) (str "unnamed").
Proof. repeat constructor; by apply keeps_ascii_alnum. Qed.

Lemma safe_name_kept (name : json) (r : pystr) :
  safe_name name = Ok r -> r <> [] /\ Forall (fun c => keeps c = true) r.
Proof.
  unfold safe_name. destruct (py_iter name) as [items|]; [|done]. simpl.
  destruct (join_kept items) as [joined|] eqn:Hj; [|done]. simpl.
  apply join_kept_keeps in Hj. rewrite (rstrip_keeps _ Hj).
  case_bool_decide as Hempty; intros [= <-].
  - split; [done|apply unnamed_keeps].
  - done.
Qed.

Lemma join_kept_raise (items : list json) (e : exn) :
  join_kept items = Raise e <->
  e = AttributeError /\ Exists (fun c => is_text c = false) items.
Proof.
  induction items as [|c items IH]; simpl.
  - split; [done|]. intros [_ H]. by apply Exists_nil in H.
  - destruct c; simpl;
      try (split; [intros [= <-]; split; [done|by left]|by intros [-> _]]).
    destruct (join_kept items) as [tail|e'] eqn:Hj; simpl.
    + split; [done|]. intros [He H]. apply Exists_cons in H as [H|H]; [done|].
      by pose proof (proj2 IH (conj He H)).
    + split.
      * intros [= ->]. destruct (proj1 IH eq_refl) as [-> H]. split; [done|by right].
      * intros [He H]. apply Exists_cons in H as [H|H]; [done|].
        destruct (proj2 IH (conj He H)). done.
Qed.

(** X4: the sanitizer raises exactly on a name that cannot be iterated
    (null, a boolean, a number: TypeError) and on a sequence with an entry
    that is not text (AttributeError, from [c.isalnum()]); on a text and on
    a mapping, whose keys are text, it always returns. *)
Theorem safe_name_raises (name : json) (e : exn) :
  safe_name name = Raise e <->
  match name with
  | JNull | JBool _ | JInt _ | JFloat _ => e = TypeError
  | JArray l => e = AttributeError /\ Exists (fun c => is_text c = false) l
  | JString _ | JObject _ => False
  end.
Proof.
  destruct name as [|b|z|f|s|l|o]; simpl;
    try (split; [by intros [= <-]|by intros ->]).
  - rewrite safe_name_text_eq. done.
  - unfold safe_name. simpl.
    destruct (join_kept l) as [r|e'] eqn:Hj; simpl.
    + split; [done|]. intros H. apply join_kept_raise in H. congruence.
    + rewrite <- join_kept_raise, Hj. split; congruence.
  - unfold safe_name. simpl.
    destruct (join_kept _) as [r|e'] eqn:Hj; simpl; [done|].
    apply join_kept_raise in Hj as [_ Hj]. exfalso.
    apply Exists_exists in Hj as (c & Hin & Hc).
    apply list_elem_of_fmap in Hin as (kv & -> & _). done.
Qed.

(** X5: whatever the name, a sanitized name is not empty and is made of
    alphanumeric characters, hyphens and underscores only; so it holds no
    path separator and no dot, and the file [<name>.json] lies in the output
    directory itself. *)
Theorem safe_name_is_safe (name : json) (r : pystr) :
  safe_name name = Ok r ->
  r <> []
  /\ Forall (fun c => isalnum_cp c = true \/ [c] = str "-" \/ [c] = str "_") r
  /\ (forall c, c ∈ r -> [c] <> str "/" /\ [c] <> str "\" /\ [c] <> str ".")
  /\ filename_of name = Ok (r ++ str ".json").
Proof.
  intros Hr. destruct (safe_name_kept _ _ Hr) as [Hne Hk].
  split; [done|]. split; [|split].
  - eapply Forall_impl; [exact Hk|]. intros c Hc. unfold keeps, pystr_eqb in Hc.
    apply orb_true_iff in Hc as [Hc|Hc]; [apply orb_true_iff in Hc as [Hc|Hc]|].
    + by left.
    + right; left. by apply bool_decide_eq_true in Hc.
    + right; right. by apply bool_decide_eq_true in Hc.
  - intros c Hc. pose proof (proj1 (Forall_forall _ _) Hk c Hc) as Hkc.
    repeat split; intros [= ->]; unfold keeps in Hkc;
      rewrite isalnum_ascii in Hkc by done; done.
  - unfold filename_of. by rewrite Hr.
Qed.

(** X6: sanitizing is idempotent: a sanitized name, taken as a text name,
    sanitizes to itself. *)
Theorem safe_name_idempotent (name : json) (r : pystr) :
  safe_name name = Ok r -> safe_name (JString r) = Ok r.
Proof.
  intros Hr. destruct (safe_name_kept _ _ Hr) as [Hne Hk].
  rewrite safe_name_text_eq, (filter_keeps_all _ Hk).
  by rewrite bool_decide_eq_false_2.
Qed.

Lemma fallback_name_keeps (i : nat) :
  Forall (fun c => keeps c = true) (fallback_name i).
Proof.
  unfold fallback_name. apply Forall_app. split.
  - repeat constructor; try by apply keeps_ascii_alnum.
    unfold keeps. by destruct (isalnum_cp _).
  - eapply Forall_impl; [apply str_of_int_digits|].
    intros c [Hc Ha]. by apply keeps_ascii_alnum.
Qed.

Lemma filename_of_fallback (i : nat) :
  filename_of (JString (fallback_name i)) = Ok (fallback_name i ++ str ".json").
Proof.
  unfold filename_of.
  rewrite safe_name_text_eq, (filter_keeps_all _ (fallback_name_keeps i)).
  by rewrite bool_decide_eq_false_2.
Qed.

Lemma fallback_filename_inj (i j : nat) :
  fallback_name i ++ str ".json" = fallback_name j ++ str ".json" -> i = j.
Proof.
  intros H. apply app_inv_tail in H. unfold fallback_name in H.
  apply app_inv_head in H. by apply str_of_int_inj.
Qed.

(** X7: the positional name [child_<i>] passes the sanitizer unchanged, so
    its file is [child_<i>.json]; and the positional names, hence these
    file names, of two different indices are different. *)
Theorem fallback_file_names (i j : nat) :
  filename_of (JString (fallback_name i)) = Ok (fallback_name i ++ str ".json")
  /\ (fallback_name i ++ str ".json" = fallback_name j ++ str ".json" -> i = j).
Proof. split; [apply filename_of_fallback|apply fallback_filename_inj]. Qed.
End SanitizerFurther.

(** ** The converter *)

Section ConverterFurther.
Context {U : UnicodeDB}.
Variable E : env.

Lemma foldl_after_write_dir (l : list (pystr * json)) (w : world) :
  dir_exists (foldl (after_write E) w l) = dir_exists w.
Proof.
  revert w. induction l as [|fc l IH]; intros w; simpl; [done|]. by rewrite IH.
Qed.

Lemma foldl_after_write_keeps (l : list (pystr * json)) (w : world) (f : pystr) :
  is_Some (files w !! f) -> is_Some (files (foldl (after_write E) w l) !! f).
Proof.
  revert w. induction l as [|[f' c] l IH]; intros w Hf; simpl; [done|].
  apply IH. unfold after_write. simpl.
  destruct (written E f' c); [|done].
  destruct (decide (f' = f)) as [->|Hne].
  - rewrite lookup_insert_eq. eauto.
  - by rewrite lookup_insert_ne.
Qed.

Lemma foldl_after_write_unopenable (l : list (pystr * json)) (w : world) (f : pystr) :
  can_open E f = false -> files (foldl (after_write E) w l) !! f = files w !! f.
Proof.
  intros Hf. revert w. induction l as [|[f' c] l IH]; intros w; simpl; [done|].
  rewrite IH. unfold after_write, written. simpl.
  destruct (can_open E f') eqn:Hf'; [|done].
  rewrite lookup_insert_ne; [done|]. intros ->. congruence.
Qed.

(** What any run does to the files: the writes of the turns that the loop
    completed, each under a sanitized file name. *)
Lemma convert_files (input_file : loaded) (w : world) :
  exists done : list (pystr * json),
    files (convert_ui_json_to_multiple_files E input_file w).2
    = files (foldl (after_write E) w done)
    /\ Forall (fun fc => exists name, filename_of name = Ok fc.1) done.
Proof.
  destruct input_file as [| |e|data]; try by exists [].
  destruct (convert_loaded_run E data)
    as [(layout & children & items & _ & _ & _ & Hrun)|(r & lines & _ & Hno)].
  - rewrite Hrun.
    destruct (for_each_run E (find_named_children items))
      as (done & r & k & Hdone & Hr & Hloop).
    destruct (foldl_after_write_files E done) as (F & _ & HF).
    exists done. rewrite Hloop. split.
    + destruct Hr as [->|[e ->]]; simpl; by rewrite !HF.
    + apply Forall_lookup. intros i fc Hi.
      destruct (Forall2_lookup_r _ _ _ _ _ Hdone Hi) as (nc & _ & Hf & _).
      by exists nc.1.
  - exists []. by destruct (Hno w) as (_ & -> & _).
Qed.

(** X8: a run changes no file but those it can open and whose name is
    [<safe>.json] for a sanitized name [safe], not empty and made of
    alphanumeric characters, hyphens and underscores: every other file of
    the directory is as it was, whatever the input and however the run
    ends. *)
Theorem convert_changes_only_sanitized_files (input_file : loaded) (w : world)
    (f : pystr) :
  files (convert_ui_json_to_multiple_files E input_file w).2 !! f <> files w !! f ->
  can_open E f = true
  /\ exists safe,
       f = safe ++ str ".json" /\ safe <> []
       /\ Forall (fun c => isalnum_cp c = true \/ [c] = str "-" \/ [c] = str "_") safe.
Proof.
  destruct (convert_files input_file w) as (done & -> & Hdone). intros Hf.
  split.
  { destruct (can_open E f) eqn:Hopen; [done|].
    by rewrite foldl_after_write_unopenable in Hf. }
  destruct (decide (f ∈ done.*1)) as [Hin|Hin];
    [|by rewrite foldl_after_write_other in Hf].
  apply list_elem_of_fmap in Hin as ([f' c] & -> & Hin).
  destruct (proj1 (Forall_forall _ _) Hdone _ Hin) as (name & Hname).
  simpl in *. unfold filename_of in Hname.
  destruct (safe_name name) as [safe|] eqn:Hsafe; [|done].
  injection Hname as <-. exists safe. split; [done|].
  destruct (safe_name_kept _ _ Hsafe) as [Hne Hk]. split; [done|].
  eapply Forall_impl; [exact Hk|]. intros a Ha. unfold keeps, pystr_eqb in Ha.
  apply orb_true_iff in Ha as [Ha|Ha]; [apply orb_true_iff in Ha as [Ha|Ha]|].
  - by left.
  - right; left. by apply bool_decide_eq_true in Ha.
  - right; right. by apply bool_decide_eq_true in Ha.
Qed.

(** X9: a run never removes a file: every file that was in the output
    directory before the run is there after it, whatever the input and
    however the run ends. *)
Theorem convert_removes_no_file (input_file : loaded) (w : world) :
  dom (files w) ⊆ dom (files (convert_ui_json_to_multiple_files E input_file w).2).
Proof.
  destruct (convert_files input_file w) as (done & -> & _).
  intros f Hf. apply elem_of_dom. apply elem_of_dom in Hf.
  by apply foldl_after_write_keeps.
Qed.

(** X10: the output directory is made exactly when the input file was read
    and parsed and [mkdir] succeeds, before the document is looked at: a
    missing or invalid input file leaves no directory behind, while a
    document without [layout.children] does. *)
Theorem convert_makes_directory (input_file : loaded) (w : world) :
  dir_exists (convert_ui_json_to_multiple_files E input_file w).2 =
  dir_exists w || match input_file with
                  | Loaded _ => mkdir_ok E
                  | _ => false
                  end.
Proof.
  destruct input_file as [| |e|data]; simpl; try by rewrite orb_false_r.
  unfold mbind, mkdir, lift.
  destruct (mkdir_ok E); [|by rewrite orb_false_r].
  rewrite orb_true_r.
  destruct (lacks_layout_children data) as [[]|]; [done| |done].
  destruct (py_getitem data _) as [layout|]; [|done].
  destruct (py_getitem layout _) as [children|]; [|done].
  destruct (py_iter children) as [items|]; [|done].
  unfold print at 1.
  destruct (for_each_run E (find_named_children items))
    as (done & r & k & _ & Hr & Hloop).
  rewrite Hloop.
  destruct Hr as [->|[e ->]]; simpl; by rewrite foldl_after_write_dir.
Qed.

Lemma for_each_ok_inv (named : list (json * json)) (w w' : world) :
  for_each named (write_child E) w = (Ok (), w') ->
  exists fs, Forall2 (fun nc f => filename_of nc.1 = Ok f) named fs.
Proof.
  revert w. induction named as [|[name c] named IH]; intros w.
  - intros _. by exists [].
  - cbn [for_each]. unfold mbind.
    destruct (filename_of name) as [f|e] eqn:Hf.
    + rewrite (write_child_ok E _ _ _ _ Hf). intros H.
      destruct (IH _ H) as [fs Hfs]. exists (f :: fs). by constructor.
    + by rewrite (write_child_raise E _ _ _ _ Hf).
Qed.

(** X11: when the converter returns success, the children value could be
    iterated, every resolved name was sanitized, and the standard output got
    the count of the children, one line per child in their order, and the
    closing line: success means that no child was skipped. *)
Theorem convert_success_reports_all (data : json) (w : world) :
  let run := convert_ui_json_to_multiple_files E (Loaded data) w in
  run.1 = Ok true ->
  exists layout children items fs,
    py_getitem data (str "layout") = Ok layout
    /\ py_getitem layout (str "children") = Ok children
    /\ py_iter children = Ok items
    /\ Forall2 (fun nc f => filename_of nc.1 = Ok f) (find_named_children items) fs
    /\ stdout run.2 =
         stdout w ++ [MsgFound (length items)]
           ++ ((fun fc => reported E fc.1 fc.2) <$> zip fs items)
           ++ [MsgCompleted].
Proof.
  intros run. remember run as r eqn:Heq. subst run. intros Htrue.
  unfold convert_ui_json_to_multiple_files, mbind, mkdir, lift in Heq.
  destruct (mkdir_ok E); [|by subst].
  destruct (lacks_layout_children data) as [[]|]; [by subst| |by subst].
  destruct (py_getitem data _) as [layout|] eqn:Hl; [|by subst].
  destruct (py_getitem layout _) as [children|] eqn:Hc; [|by subst].
  destruct (py_iter children) as [items|] eqn:Hi; [|by subst].
  unfold print at 1 in Heq.
  destruct (for_each _ _ _) as [[[]|e] w'] eqn:Hloop; [|by subst].
  destruct (for_each_ok_inv _ _ _ Hloop) as [fs Hfs].
  rewrite (for_each_sanitized E _ _ _ Hfs) in Hloop. injection Hloop as <-.
  exists layout, children, items, fs. do 4 (split; [done|]).
  subst r. simpl. rewrite foldl_after_write_stdout. simpl.
  rewrite find_named_children_snd, find_named_children_length.
  by rewrite <- !app_assoc.
Qed.


End ConverterFurther.

(** ** File names that meet, and file names that cannot *)

Section CollisionsFurther.
Context {U : UnicodeDB}.
Variable E : env.





(** X15: a document whose [layout.children] has nothing to iterate (an
    empty sequence, an empty text or an empty mapping) is a success: the
    run prints a count of 0 and the closing line, and writes no file. *)
Theorem no_children_no_files (d l : list (pystr * json)) (children : json)
    (w : world) :
  mkdir_ok E = true ->
  dict_get (str "layout") d = Some (JObject l) ->
  dict_get (str "children") l = Some children ->
  children = JArray [] \/ children = JString [] \/ children = JObject [] ->
  let run := convert_ui_json_to_multiple_files E (Loaded (JObject d)) w in
  run.1 = Ok true
  /\ files run.2 = files w
  /\ stdout run.2 = stdout w ++ [MsgFound 0; MsgCompleted].
Proof.
  intros Hm Hl Hc Hempty run. subst run.
  unfold convert_ui_json_to_multiple_files, mbind, mkdir, lift.
  rewrite Hm, lacks_layout_children_object, Hl. simpl.
  rewrite Hc, bool_decide_eq_true_2 by eauto. simpl.
  rewrite Hl. simpl. rewrite Hc. simpl.
  destruct Hempty as [->|[->| ->]]; simpl; by rewrite <- app_assoc.
Qed.
End CollisionsFurther.

Section DocumentFurther.
Context {U : UnicodeDB}.
Variable E : env.

(** X16: of the document the run uses [layout.children] and nothing else.
    Two documents that are mappings with a mapping under [layout] and the
    same value under [layout.children] give the same run: the other keys of
    the document and of [layout] leave no trace in the result, in the files
    or on the standard output. *)
Theorem only_layout_children_matters (d1 d2 l1 l2 : list (pystr * json))
    (children : json) (w : world) :
  dict_get (str "layout") d1 = Some (JObject l1) ->
  dict_get (str "layout") d2 = Some (JObject l2) ->
  dict_get (str "children") l1 = Some children ->
  dict_get (str "children") l2 = Some children ->
  convert_ui_json_to_multiple_files E (Loaded (JObject d1)) w =
  convert_ui_json_to_multiple_files E (Loaded (JObject d2)) w.
Proof.
  intros H1 H2 Hc1 Hc2.
  unfold convert_ui_json_to_multiple_files, mbind, mkdir, lift.
  destruct (mkdir_ok E); [|done].
  rewrite !lacks_layout_children_object, H1, H2. simpl.
  rewrite Hc1, Hc2, !bool_decide_eq_true_2 by eauto. simpl.
  rewrite H1, H2. simpl. by rewrite Hc1, Hc2.
Qed.
End DocumentFurther.

(** ** Concrete runs for the further properties *)

Lemma safe_name_is_safe_witness :
  str "MyButton1" <> []
  /\ filename_of (U := ascii_db) (JString (str "My Button!#1"))
     = Ok (str "MyButton1.json").
Proof.
  destruct (safe_name_is_safe (U := ascii_db) (JString (str "My Button!#1"))
              (str "MyButton1") eq_refl) as (Hne & _ & _ & Hfile).
  split; [exact Hne|exact Hfile].
Defined.

Lemma safe_name_idempotent_witness :
  safe_name (U := ascii_db) (JString (str "MyButton1")) = Ok (str "MyButton1").
Proof.
  exact (safe_name_idempotent (U := ascii_db) (JString (str "My Button!#1"))
           (str "MyButton1") eq_refl).
Defined.

Lemma fallback_file_names_witness :
  filename_of (U := ascii_db) (JString (str "child_12")) = Ok (str "child_12.json")
  /\ 12 = 12.
Proof.
  destruct (fallback_file_names (U := ascii_db) 12 12) as [Hfile Hinj].
  split; [exact Hfile|exact (Hinj eq_refl)].
Defined.

Lemma convert_changes_only_sanitized_files_witness :
  can_open (demo_env (fun _ => true)) (str "ok.json") = true
  /\ exists safe, str "ok.json" = safe ++ str ".json" /\ safe <> [].
Proof.
  destruct (convert_changes_only_sanitized_files (U := ascii_db)
              (demo_env (fun _ => true))
              (Loaded (document (JArray [named_ok]))) empty_world (str "ok.json"))
    as (Hopen & safe & Hf & Hne & _).
  - vm_compute. discriminate.
  - split; [exact Hopen|]. exists safe. split; [exact Hf|exact Hne].
Defined.

Lemma convert_success_reports_all_witness :
  exists fs,
    stdout (convert_ui_json_to_multiple_files (U := ascii_db)
              (demo_env (fun _ => true))
              (Loaded (document (JArray [named_ok; unnamed_x]))) empty_world).2
    = [MsgFound 2]
        ++ ((fun fc => reported (demo_env (fun _ => true)) fc.1 fc.2)
              <$> zip fs [named_ok; unnamed_x])
        ++ [MsgCompleted].
Proof.
  destruct (convert_success_reports_all (U := ascii_db) (demo_env (fun _ => true))
              (document (JArray [named_ok; unnamed_x])) empty_world eq_refl)
    as (layout & children & items & fs & Hl & Hc & Hi & _ & Hout).
  injection Hl as <-. injection Hc as <-. injection Hi as <-.
  exists fs. exact Hout.
Defined.




Lemma no_children_no_files_witness :
  let run :=
    convert_ui_json_to_multiple_files (U := ascii_db) (demo_env (fun _ => true))
      (Loaded (document (JArray []))) empty_world in
  run.1 = Ok true /\ files run.2 = ∅ /\ stdout run.2 = [MsgFound 0; MsgCompleted].
Proof.
  exact (no_children_no_files (U := ascii_db) (demo_env (fun _ => true))
           [(str "layout", JObject [(str "children", JArray [])])]
           [(str "children", JArray [])] (JArray []) empty_world
           eq_refl eq_refl eq_refl (or_introl eq_refl)).
Defined.

(** Another key beside [children], and another key beside [layout]. *)
Lemma only_layout_children_matters_witness :
  convert_ui_json_to_multiple_files (U := ascii_db) (demo_env (fun _ => true))
    (Loaded (JObject [(str "version", JInt 2);
                      (str "layout",
                       JObject [(str "type", JString (str "panel"));
                                (str "children", JArray [named_ok])])]))
    empty_world
  = convert_ui_json_to_multiple_files (U := ascii_db) (demo_env (fun _ => true))
      (Loaded (document (JArray [named_ok]))) empty_world.
Proof.
  exact (only_layout_children_matters (U := ascii_db) (demo_env (fun _ => true))
           [(str "version", JInt 2);
            (str "layout",
             JObject [(str "type", JString (str "panel"));
                      (str "children", JArray [named_ok])])]
           [(str "layout", JObject [(str "children", JArray [named_ok])])]
           [(str "type", JString (str "panel")); (str "children", JArray [named_ok])]
           [(str "children", JArray [named_ok])]
           (JArray [named_ok]) empty_world eq_refl eq_refl eq_refl eq_refl).
Defined.
